(** * Capture agents: frontier, distance queries and the two feature extractors

    A shallow embedding of [capture.py] (classes [StudentCaptureAgent],
    [AttackerAgent], [GuardAgent]) and the properties of its feature
    vectors.

    Modelling choices.
    - Python [float] values are rationals ([Q]).  The module only compares
      floats and selects among them ([min], [<=], [>=]); its single
      arithmetic operation is [board.width / 2].  All its constants
      (0.0, 1.0, 3.0, 12.0, 20.0, 9999.0) are exact.
    - Python [int] values (rows, columns, width, height, agent indexes)
      are [Z]; [//] is [Z.div] (both round towards minus infinity).
    - [Position | None] is [option Position].
    - [FeatureDict] and the weight mapping are [gmap string Q]; an
      assignment [features[k] = v] is [<[k:=v]>].
    - [dict[int, Position]] (opponent id to position) is an association
      list in insertion order; [.values()] is the list of its second
      components.
    - The board, the game state and the precomputed distance table belong
      to the [pacai] library, not to this module: they are records of the
      operations the module calls on them. *)

From Stdlib Require Import ZArith QArith Lia Sorted.
From stdpp Require Import gmap strings list.

Local Open Scope string_scope.
Local Open Scope Z_scope.
Local Open Scope list_scope.

(** ** Python built-ins used by the module *)

(** [x < y] on floats. *)
Definition Qltb (x y : Q) : bool := negb (Qle_bool y x).

(** [min(a, b)]: the first argument is kept unless the second is strictly
    smaller. *)
Definition py_min (a b : Q) : Q := if Qltb b a then b else a.

(** [min(iterable)] on an iterable whose first item is [first]. *)
Definition py_min_iter (first : Q) (rest : list Q) : Q := fold_left py_min rest first.

(** [float(b)] for a [bool]. *)
Definition float_of_bool (b : bool) : Q := if b then 1%Q else 0%Q.

(** [float(n)] for the [int] returned by [len]. *)
Definition float_of_len (n : nat) : Q := inject_Z (Z.of_nat n).

(** [range(n)]. *)
Definition range (n : Z) : list Z := seqZ 0 n.

(** [d.values()]. *)
Definition values {K V : Type} (d : list (K * V)) : list V := map snd d.

(** [l[-2]], defined when [l] has at least two items. *)
Definition index_neg2 {A : Type} (l : list A) : option A := l !! (length l - 2)%nat.

(** ** Data of the pacai library *)

Record Position := mkPosition { row : Z; col : Z }.

Definition Action := string.
Definition STOP : Action := "STOP".
Definition Action_eqb (a b : Action) : bool := bool_decide (a = b).

Record Board := mkBoard {
  width : Z;
  height : Z;
  is_wall : Position -> bool;
  get_agent_initial_position : Z -> option Position
}.

(** The distance table after [compute]; [get_distance_default start end
    default] is its only query. *)
Record DistancePreComputer := mkDistances {
  get_distance_default : Position -> Position -> Q -> Q
}.

Record GameState := mkGameState {
  board : Board;
  get_normalized_score : Z -> Q;
  is_ghost : Z -> bool;
  get_agent_actions : Z -> list Action;
  get_reverse_action : Action -> Action;
  get_agent_position : Z -> option Position;
  get_food : Z -> list Position;
  get_nonscared_opponent_positions : Z -> list (Z * Position);
  get_invader_positions : Z -> list (Z * Position)
}.

Definition MAX_DIST : Q := 9999.

(** ** class StudentCaptureAgent *)

Module StudentCaptureAgent.

(** The fields of an agent instance: [agent_index] and [weights] come from
    the base class, the other three are set by [__init__]. *)
Record t := mk {
  agent_index : Z;
  weights : gmap string Q;
  _distances : DistancePreComputer;
  _frontier : list Position;
  _initial_position : option Position
}.

Section WithLibrary.

(** [DistancePreComputer()] and [DistancePreComputer.compute]. *)
Variable new_distances : DistancePreComputer.
Variable compute : DistancePreComputer -> Board -> DistancePreComputer.

(** [__init__]: the base class receives the agent index and the initial
    weights through its keyword arguments. *)
Definition __init__ (index : Z) (base_weights : gmap string Q) : t :=
  {| agent_index := index;
     weights := base_weights;
     _distances := new_distances;
     _frontier := [];
     _initial_position := None |}.

(** The column scanned by [_build_frontier] (its [frontier_col]). *)
Definition frontier_col (self : t) (board : Board) : Z :=
  match _initial_position self with
  | Some initial =>
      if Qle_bool (inject_Z (width board) / 2) (inject_Z (col initial))
      then width board / 2
      else width board / 2 - 1
  | None => width board / 2 - 1
  end.

(** The [for row in range(board.height)] loop of [_build_frontier]. *)
Definition scan_column (board : Board) (column : Z) : list Position :=
  fold_left
    (fun frontier row =>
       let position := mkPosition row column in
       if is_wall board position then frontier else frontier ++ [position])
    (range (height board)) [].

Definition _build_frontier (self : t) (state : GameState) : list Position :=
  let board := board state in
  let frontier := scan_column board (frontier_col self board) in
  match frontier, _initial_position self with
  | [], Some initial => frontier ++ [initial]
  | _, _ => frontier
  end.

Definition game_start (self : t) (initial_state : GameState) : t :=
  let self :=
    {| agent_index := agent_index self;
       weights := weights self;
       _distances := compute new_distances (board initial_state);
       _frontier := _frontier self;
       _initial_position :=
         get_agent_initial_position (board initial_state) (agent_index self) |} in
  {| agent_index := agent_index self;
     weights := weights self;
     _distances := _distances self;
     _frontier := _build_frontier self initial_state;
     _initial_position := _initial_position self |}.

End WithLibrary.

Definition _distance (self : t) (start end_ : option Position) (default : Q) : Q :=
  match start, end_ with
  | Some s, Some e => get_distance_default (_distances self) s e default
  | _, _ => default
  end.

Definition _closest_distance (self : t) (start : option Position)
    (targets : list Position) (default : Q) : Q :=
  match start with
  | None => default
  | Some _ =>
      fold_left
        (fun best target => py_min best (_distance self start (Some target) default))
        targets default
  end.

Definition _distance_to_frontier (self : t) (position : option Position) : Q :=
  match position, _frontier self with
  | None, _ => 0%Q
  | Some _, [] => 0%Q
  | Some _, entry :: entries =>
      py_min_iter
        (_distance self position (Some entry) MAX_DIST)
        (map (fun entry => _distance self position (Some entry) MAX_DIST) entries)
  end.

End StudentCaptureAgent.

(** [target.update(source)] on dicts: the keys of [source] override. *)
Definition dict_update (target source : gmap string Q) : gmap string Q := source ∪ target.

(** ** class AttackerAgent *)

Module AttackerAgent.
Import StudentCaptureAgent.

Definition role_weights : gmap string Q :=
  list_to_map
    [ ("bias", 1%Q);
      ("score", 150%Q);
      ("distance_to_food", (-25 # 10)%Q);
      ("distance_to_ghost", (18 # 10)%Q);
      ("ghost_near", (-200)%Q);
      ("stopped", (-80)%Q);
      ("reverse", (-4)%Q);
      ("on_home_side", (-10)%Q) ].

Definition __init__ (new_distances : DistancePreComputer)
    (index : Z) (base_weights : gmap string Q) : t :=
  let self := StudentCaptureAgent.__init__ new_distances index base_weights in
  {| agent_index := agent_index self;
     weights := dict_update (weights self) role_weights;
     _distances := _distances self;
     _frontier := _frontier self;
     _initial_position := _initial_position self |}.

Definition compute_features (self : t) (state : GameState) (action : Action)
    : gmap string Q :=
  let features : gmap string Q := ∅ in
  let features := <["bias" := 1%Q]> features in
  let features := <["score" := get_normalized_score state (agent_index self)]> features in
  let features := <["stopped" := float_of_bool (Action_eqb action STOP)]> features in
  let features :=
    <["on_home_side" := float_of_bool (is_ghost state (agent_index self))]> features in
  let features := <["reverse" := 0%Q]> features in
  let agent_actions := get_agent_actions state (agent_index self) in
  let features :=
    if (1 <? length agent_actions)%nat then
      match index_neg2 agent_actions with
      | Some previous =>
          <["reverse" :=
              float_of_bool (Action_eqb action (get_reverse_action state previous))]>
            features
      | None => features
      end
    else features in
  let position := get_agent_position state (agent_index self) in
  match position with
  | None => features
  | Some _ =>
      let food := get_food state (agent_index self) in
      let features :=
        if (0 <? length food)%nat then
          let food_distance := _closest_distance self position food MAX_DIST in
          <["distance_to_food" := py_min food_distance 20%Q]> features
        else <["distance_to_food" := 0%Q]> features in
      let ghosts := get_nonscared_opponent_positions state (agent_index self) in
      let ghost_distance := _closest_distance self position (values ghosts) MAX_DIST in
      let capped_ghost_distance := py_min ghost_distance 12%Q in
      let features := <["distance_to_ghost" := capped_ghost_distance]> features in
      let features := <["ghost_near" := float_of_bool (Qle_bool ghost_distance 3%Q)]> features in
      features
  end.

End AttackerAgent.

(** ** class GuardAgent *)

Module GuardAgent.
Import StudentCaptureAgent.

Definition role_weights : gmap string Q :=
  list_to_map
    [ ("bias", 1%Q);
      ("on_home_side", 60%Q);
      ("stopped", (-60)%Q);
      ("reverse", (-3)%Q);
      ("num_invaders", (-1200)%Q);
      ("distance_to_invader", (-25)%Q);
      ("frontier_distance", (-25 # 10)%Q) ].

Definition __init__ (new_distances : DistancePreComputer)
    (index : Z) (base_weights : gmap string Q) : t :=
  let self := StudentCaptureAgent.__init__ new_distances index base_weights in
  {| agent_index := agent_index self;
     weights := dict_update (weights self) role_weights;
     _distances := _distances self;
     _frontier := _frontier self;
     _initial_position := _initial_position self |}.

Definition compute_features (self : t) (state : GameState) (action : Action)
    : gmap string Q :=
  let features : gmap string Q := ∅ in
  let features := <["bias" := 1%Q]> features in
  let features := <["stopped" := float_of_bool (Action_eqb action STOP)]> features in
  let features :=
    <["on_home_side" := float_of_bool (is_ghost state (agent_index self))]> features in
  let features := <["reverse" := 0%Q]> features in
  let agent_actions := get_agent_actions state (agent_index self) in
  let features :=
    if (1 <? length agent_actions)%nat then
      match index_neg2 agent_actions with
      | Some previous =>
          <["reverse" :=
              float_of_bool (Action_eqb action (get_reverse_action state previous))]>
            features
      | None => features
      end
    else features in
  let position := get_agent_position state (agent_index self) in
  match position with
  | None => features
  | Some _ =>
      let invaders := get_invader_positions state (agent_index self) in
      let features := <["num_invaders" := float_of_len (length invaders)]> features in
      let features :=
        if (0 <? length invaders)%nat then
          let distance := _closest_distance self position (values invaders) MAX_DIST in
          let features := <["distance_to_invader" := distance]> features in
          <["frontier_distance" := 0%Q]> features
        else
          let features := <["distance_to_invader" := 0%Q]> features in
          <["frontier_distance" := _distance_to_frontier self position]> features in
      features
  end.

End GuardAgent.

(** ** create_team *)

(** [AgentInfo(name = ...)]: the descriptor of an agent class. *)
Record AgentInfo := mkAgentInfo { name : string }.

(** [module_name] is the module's [__name__]. *)
Definition create_team (module_name : string) : list AgentInfo :=
  let offensive := mkAgentInfo (module_name +:+ ".AttackerAgent") in
  let defensive := mkAgentInfo (module_name +:+ ".GuardAgent") in
  [offensive; defensive].

(** ** Concrete boards, tables and states used in the examples *)

Module Sample.
Import StudentCaptureAgent.

(** A table that knows every pair: the Manhattan distance. *)
Definition manhattan : DistancePreComputer :=
  mkDistances (fun s e _ => inject_Z (Z.abs (row s - row e) + Z.abs (col s - col e))).

(** A table that knows no pair. *)
Definition unknown : DistancePreComputer := mkDistances (fun _ _ default => default).

Definition compute (_ : DistancePreComputer) (_ : Board) : DistancePreComputer := manhattan.

(** Width 10, three rows, no wall; agent 0 starts at column 2 and agent 1
    at column 7. *)
Definition open_board : Board :=
  mkBoard 10 3 (fun _ => false)
    (fun index =>
       if index =? 0 then Some (mkPosition 1 2)
       else if index =? 1 then Some (mkPosition 1 7)
       else None).

(** Width 10, two rows, every cell a wall, no agent placed on it. *)
Definition walled_board : Board := mkBoard 10 2 (fun _ => true) (fun _ => None).

(** Same walls, agent 0 placed at row 0, column 1. *)
Definition walled_board_with_agent : Board :=
  mkBoard 10 2 (fun _ => true)
    (fun index => if index =? 0 then Some (mkPosition 0 1) else None).

Definition state_on (b : Board) (position : option Position)
    (food : list Position) (ghosts invaders : list (Z * Position)) : GameState :=
  {| board := b;
     get_normalized_score := fun _ => 0%Q;
     is_ghost := fun _ => true;
     get_agent_actions := fun _ => ["NORTH"; "SOUTH"];
     get_reverse_action :=
       fun a => if Action_eqb a "NORTH" then "SOUTH"
                else if Action_eqb a "SOUTH" then "NORTH" else a;
     get_agent_position := fun _ => position;
     get_food := fun _ => food;
     get_nonscared_opponent_positions := fun _ => ghosts;
     get_invader_positions := fun _ => invaders |}.

Definition attacker : t :=
  game_start unknown compute (AttackerAgent.__init__ unknown 0 ∅)
    (state_on open_board None [] [] []).

Definition guard : t :=
  game_start unknown compute (GuardAgent.__init__ unknown 1 ∅)
    (state_on open_board None [] [] []).

(** The attacker is at (1, 2); food at distance 25; a ghost at distance 3. *)
Definition attacker_state : GameState :=
  state_on open_board (Some (mkPosition 1 2))
    [mkPosition 1 27] [(1, mkPosition 1 5)] [].

(** The same, with nothing visible. *)
Definition quiet_state : GameState :=
  state_on open_board (Some (mkPosition 1 2)) [] [] [].

(** The guard is at (1, 7) and sees one invader at distance 4. *)
Definition guard_state : GameState :=
  state_on open_board (Some (mkPosition 1 7)) [] [] [(2, mkPosition 1 3)].

(** A guard started on the walled board, where it was never placed. *)
Definition walled_state : GameState := state_on walled_board None [] [] [].

Definition stranded_guard : t :=
  game_start unknown compute (GuardAgent.__init__ unknown 0 ∅) walled_state.

(** The acting agent has just been eaten. *)
Definition eaten_state : GameState :=
  state_on open_board None [mkPosition 1 8] [(1, mkPosition 1 5)] [(2, mkPosition 1 6)].

End Sample.

(** * Properties *)

Import StudentCaptureAgent.

(** ** Comparisons and [min] *)

Lemma Qltb_lt (x y : Q) : Qltb x y = true <-> (x < y)%Q.
Proof.
  unfold Qltb. rewrite negb_true_iff. split.
  - intros H. apply Qnot_le_lt. intros Hle.
    apply Qle_bool_iff in Hle. congruence.
  - intros H. destruct (Qle_bool y x) eqn:E; [|reflexivity].
    apply Qle_bool_iff in E. exfalso. exact (Qlt_not_le _ _ H E).
Qed.

Lemma Qltb_ge (x y : Q) : Qltb x y = false <-> (y <= x)%Q.
Proof.
  unfold Qltb. rewrite negb_false_iff. apply Qle_bool_iff.
Qed.

Lemma py_min_cases (a b : Q) : py_min a b = a \/ py_min a b = b.
Proof. unfold py_min. destruct (Qltb b a); auto. Qed.

Lemma py_min_smaller (a b : Q) : (b < a)%Q -> py_min a b = b.
Proof. intros H. unfold py_min. apply Qltb_lt in H. now rewrite H. Qed.

Lemma py_min_first (a b : Q) : (a <= b)%Q -> py_min a b = a.
Proof. intros H. unfold py_min. apply Qltb_ge in H. now rewrite H. Qed.

Lemma py_min_le_l (a b : Q) : (py_min a b <= a)%Q.
Proof.
  unfold py_min. destruct (Qltb b a) eqn:E.
  - apply Qltb_lt in E. now apply Qlt_le_weak.
  - apply Qle_refl.
Qed.

Lemma py_min_le_r (a b : Q) : (py_min a b <= b)%Q.
Proof.
  unfold py_min. destruct (Qltb b a) eqn:E.
  - apply Qle_refl.
  - now apply Qltb_ge in E.
Qed.

Lemma py_min_glb (a b c : Q) : (c <= a)%Q -> (c <= b)%Q -> (c <= py_min a b)%Q.
Proof. intros Ha Hb. destruct (py_min_cases a b) as [-> | ->]; assumption. Qed.

Lemma float_of_bool_one (b : bool) : (float_of_bool b == 1)%Q <-> b = true.
Proof. destruct b; simpl; split; intros H; try reflexivity; discriminate. Qed.

Lemma float_of_len_pos (n : nat) : (0 < float_of_len n)%Q <-> (0 < n)%nat.
Proof.
  unfold float_of_len, Qlt. simpl. lia.
Qed.

Lemma float_of_len_zero (n : nat) : (float_of_len n == 0)%Q <-> n = 0%nat.
Proof.
  unfold float_of_len, Qeq. simpl. lia.
Qed.

(** ** The running minimum of the [for target in targets] loop *)

Section RunningMin.

Context {A : Type} (f : A -> Q).

Local Abbreviation step := (fun (best : Q) (target : A) => py_min best (f target)).

Lemma running_min_le_seed (targets : list A) (seed : Q) :
  (fold_left step targets seed <= seed)%Q.
Proof.
  revert seed. induction targets as [|t ts IH]; intros seed; simpl.
  - apply Qle_refl.
  - eapply Qle_trans; [apply IH|]. apply py_min_le_l.
Qed.

Lemma running_min_le_item (targets : list A) (seed : Q) (t : A) :
  t ∈ targets -> (fold_left step targets seed <= f t)%Q.
Proof.
  revert seed. induction targets as [|u ts IH]; intros seed Hin.
  - inversion Hin.
  - apply elem_of_cons in Hin as [-> | Hin]; simpl.
    + eapply Qle_trans; [apply running_min_le_seed|]. apply py_min_le_r.
    + now apply IH.
Qed.

Lemma running_min_attained (targets : list A) (seed : Q) :
  fold_left step targets seed = seed
  \/ exists t, t ∈ targets /\ fold_left step targets seed = f t.
Proof.
  revert seed. induction targets as [|u ts IH]; intros seed; simpl.
  - now left.
  - destruct (IH (step seed u)) as [E | (t & Hin & E)].
    + rewrite E. destruct (py_min_cases seed (f u)) as [-> | ->].
      * now left.
      * right. exists u. split; [apply list_elem_of_here | reflexivity].
    + right. exists t. split; [now apply list_elem_of_further | exact E].
Qed.

Lemma running_min_glb (targets : list A) (seed c : Q) :
  (c <= seed)%Q -> (forall t, t ∈ targets -> (c <= f t)%Q) ->
  (c <= fold_left step targets seed)%Q.
Proof.
  intros Hseed Hall.
  destruct (running_min_attained targets seed) as [-> | (t & Hin & ->)]; auto.
Qed.

Lemma min_of_map (targets : list A) (first : Q) :
  py_min_iter first (map f targets) = fold_left step targets first.
Proof.
  unfold py_min_iter. revert first.
  induction targets as [|u ts IH]; intros first; simpl; [reflexivity | apply IH].
Qed.

End RunningMin.

(** ** The distance queries *)

Lemma distance_undefined_start (self : t) (e : option Position) (default : Q) :
  _distance self None e default = default.
Proof. reflexivity. Qed.

Lemma distance_undefined_end (self : t) (s : option Position) (default : Q) :
  _distance self s None default = default.
Proof. now destruct s. Qed.

Lemma closest_distance_le_default (self : t) (p : Position)
    (targets : list Position) (default : Q) :
  (_closest_distance self (Some p) targets default <= default)%Q.
Proof. apply (running_min_le_seed (fun x => _distance self (Some p) (Some x) default)). Qed.

Lemma closest_distance_le_target (self : t) (p : Position)
    (targets : list Position) (default : Q) (target : Position) :
  target ∈ targets ->
  (_closest_distance self (Some p) targets default
   <= _distance self (Some p) (Some target) default)%Q.
Proof. apply (running_min_le_item (fun x => _distance self (Some p) (Some x) default)). Qed.

Lemma closest_distance_attained (self : t) (p : Position)
    (targets : list Position) (default : Q) :
  _closest_distance self (Some p) targets default = default
  \/ exists target, target ∈ targets
       /\ _closest_distance self (Some p) targets default
          = _distance self (Some p) (Some target) default.
Proof. apply (running_min_attained (fun x => _distance self (Some p) (Some x) default)). Qed.

Lemma closest_distance_nonneg (self : t) (p : Position)
    (targets : list Position) (default : Q) :
  (0 <= default)%Q ->
  (forall s e, 0 <= get_distance_default (_distances self) s e default)%Q ->
  (0 <= _closest_distance self (Some p) targets default)%Q.
Proof.
  intros Hd Htable.
  apply (running_min_glb (fun x => _distance self (Some p) (Some x) default)); [exact Hd|].
  intros target _. simpl. apply Htable.
Qed.

Lemma distance_to_frontier_le_cell (self : t) (p cell : Position) :
  cell ∈ _frontier self ->
  (_distance_to_frontier self (Some p) <= _distance self (Some p) (Some cell) MAX_DIST)%Q.
Proof.
  unfold _distance_to_frontier. destruct (_frontier self) as [|entry entries]; intros Hin.
  - inversion Hin.
  - rewrite min_of_map. apply elem_of_cons in Hin as [-> | Hin].
    + apply (running_min_le_seed (fun x => _distance self (Some p) (Some x) MAX_DIST)).
    + now apply (running_min_le_item (fun x => _distance self (Some p) (Some x) MAX_DIST)).
Qed.

Lemma distance_to_frontier_attained (self : t) (p : Position) :
  _frontier self <> [] ->
  exists cell, cell ∈ _frontier self
    /\ _distance_to_frontier self (Some p) = _distance self (Some p) (Some cell) MAX_DIST.
Proof.
  unfold _distance_to_frontier. destruct (_frontier self) as [|entry entries]; intros Hne.
  - congruence.
  - rewrite min_of_map.
    destruct (running_min_attained
                (fun x => _distance self (Some p) (Some x) MAX_DIST) entries
                (_distance self (Some p) (Some entry) MAX_DIST)) as [E | (c & Hin & E)].
    + exists entry. split; [apply list_elem_of_here | exact E].
    + exists c. split; [now apply list_elem_of_further | exact E].
Qed.

(** C8: [_distance] returns the supplied default whenever an endpoint is
    undefined, whatever the precomputed table holds (the table is an
    arbitrary field of the agent, so the result does not depend on it);
    [_closest_distance] returns the supplied default whenever the start is
    undefined or there is no target. *)
Theorem distance_queries_default
    (index : Z) (w : gmap string Q) (table : DistancePreComputer)
    (frontier : list Position) (initial : option Position)
    (start end_ : option Position) (targets : list Position) (default : Q) :
  let self := StudentCaptureAgent.mk index w table frontier initial in
  _distance self None end_ default = default
  /\ _distance self start None default = default
  /\ _closest_distance self None targets default = default
  /\ _closest_distance self start [] default = default.
Proof.
  intros self. repeat split.
  - apply distance_undefined_end.
  - now destruct start.
Qed.

(** C7: [_distance_to_frontier] returns 0.0 when the position is undefined
    or the cached frontier is empty; otherwise it returns the minimum over
    the frontier cells of [_distance position cell] taken with the default
    [MAX_DIST] = 9999.0: it is the distance of some frontier cell and is
    at most the distance of every frontier cell. *)
Theorem distance_to_frontier_spec (self : t) (position : option Position) :
  MAX_DIST = 9999%Q
  /\ _distance_to_frontier self None = 0%Q
  /\ (_frontier self = [] -> _distance_to_frontier self position = 0%Q)
  /\ (forall p, position = Some p -> _frontier self <> [] ->
        (exists cell, cell ∈ _frontier self
           /\ _distance_to_frontier self position
              = _distance self position (Some cell) 9999%Q)
        /\ (forall cell, cell ∈ _frontier self ->
              (_distance_to_frontier self position
               <= _distance self position (Some cell) 9999%Q)%Q)).
Proof.
  split; [reflexivity|]. split; [reflexivity|]. split.
  - intros E. unfold _distance_to_frontier. rewrite E. now destruct position.
  - intros p -> Hne. split.
    + now apply distance_to_frontier_attained.
    + intros cell Hin. now apply distance_to_frontier_le_cell.
Qed.

(** ** The attacker's features *)

Lemma attacker_ghost_features (self : t) (state : GameState) (action : Action)
    (position : Position) :
  get_agent_position state (agent_index self) = Some position ->
  let ghost_distance :=
    _closest_distance self (Some position)
      (values (get_nonscared_opponent_positions state (agent_index self))) MAX_DIST in
  AttackerAgent.compute_features self state action !! "ghost_near"
    = Some (float_of_bool (Qle_bool ghost_distance 3%Q))
  /\ AttackerAgent.compute_features self state action !! "distance_to_ghost"
     = Some (py_min ghost_distance 12%Q).
Proof.
  intros Hpos gd. unfold AttackerAgent.compute_features. rewrite Hpos. cbv zeta.
  split.
  - now rewrite lookup_insert_eq.
  - rewrite lookup_insert_ne by discriminate. now rewrite lookup_insert_eq.
Qed.

Lemma attacker_food_feature (self : t) (state : GameState) (action : Action)
    (position : Position) :
  get_agent_position state (agent_index self) = Some position ->
  let food := get_food state (agent_index self) in
  AttackerAgent.compute_features self state action !! "distance_to_food"
    = Some (match food with
            | [] => 0%Q
            | _ :: _ => py_min (_closest_distance self (Some position) food MAX_DIST) 20%Q
            end).
Proof.
  intros Hpos food. unfold AttackerAgent.compute_features. rewrite Hpos. cbv zeta.
  rewrite !lookup_insert_ne by discriminate. fold food.
  destruct food as [|f fs]; simpl; now rewrite lookup_insert_eq.
Qed.

(** C1: when the attacker's position is defined, [ghost_near] is 1.0 or
    0.0, and it equals 1.0 exactly when the closest distance to the
    visible non-scared opponents, computed with default [MAX_DIST] =
    9999.0 and not capped, is at most 3.0; the capped value only goes into
    [distance_to_ghost]. *)
Theorem attacker_ghost_near_iff (self : t) (state : GameState) (action : Action)
    (position : Position) :
  get_agent_position state (agent_index self) = Some position ->
  let ghost_distance :=
    _closest_distance self (Some position)
      (values (get_nonscared_opponent_positions state (agent_index self))) 9999%Q in
  exists ghost_near,
    AttackerAgent.compute_features self state action !! "ghost_near" = Some ghost_near
    /\ (ghost_near = 1%Q \/ ghost_near = 0%Q)
    /\ ((ghost_near == 1)%Q <-> (ghost_distance <= 3)%Q)
    /\ AttackerAgent.compute_features self state action !! "distance_to_ghost"
       = Some (py_min ghost_distance 12%Q).
Proof.
  intros Hpos gd.
  destruct (attacker_ghost_features self state action position Hpos) as [Hnear Hcap].
  fold MAX_DIST gd in Hnear, Hcap |- *.
  exists (float_of_bool (Qle_bool gd 3%Q)). split; [exact Hnear|]. split.
  - destruct (Qle_bool gd 3%Q); simpl; auto.
  - split; [|exact Hcap]. rewrite float_of_bool_one. apply Qle_bool_iff.
Qed.

(** C10: when the attacker's position is defined and no non-scared
    opponent is visible, [distance_to_ghost] is exactly 12.0 and
    [ghost_near] is 0.0. *)
Theorem attacker_no_ghost_visible (self : t) (state : GameState) (action : Action)
    (position : Position) :
  get_agent_position state (agent_index self) = Some position ->
  get_nonscared_opponent_positions state (agent_index self) = [] ->
  AttackerAgent.compute_features self state action !! "distance_to_ghost" = Some 12%Q
  /\ AttackerAgent.compute_features self state action !! "ghost_near" = Some 0%Q.
Proof.
  intros Hpos Hnone.
  destruct (attacker_ghost_features self state action position Hpos) as [Hnear Hcap].
  rewrite Hnone in Hnear, Hcap. split; [exact Hcap | exact Hnear].
Qed.

(** C3: when the attacker's position is defined and the distance table
    returns non-negative values: with food visible, [distance_to_food] is
    the closest-food distance capped at 20.0 and lies in [0.0, 20.0]; with
    no food visible it is 0.0; a closest-food distance of 25 gives exactly
    20.0. *)
Theorem attacker_distance_to_food (self : t) (state : GameState) (action : Action)
    (position : Position) :
  get_agent_position state (agent_index self) = Some position ->
  (forall s e, 0 <= get_distance_default (_distances self) s e 9999)%Q ->
  let food := get_food state (agent_index self) in
  let nearest := _closest_distance self (Some position) food 9999%Q in
  exists distance_to_food,
    AttackerAgent.compute_features self state action !! "distance_to_food"
      = Some distance_to_food
    /\ (food <> [] ->
          (0 <= distance_to_food)%Q /\ (distance_to_food <= 20)%Q
          /\ ((nearest <= 20)%Q -> distance_to_food = nearest)
          /\ ((20 < nearest)%Q -> distance_to_food = 20%Q)
          /\ ((nearest == 25)%Q -> distance_to_food = 20%Q))
    /\ (food = [] -> distance_to_food = 0%Q).
Proof.
  intros Hpos Htable food nearest.
  pose proof (attacker_food_feature self state action position Hpos) as Hfood.
  cbv zeta in Hfood. fold food in Hfood.
  destruct food as [|f fs] eqn:Efood.
  - exists 0%Q. split; [exact Hfood|]. split; [congruence | reflexivity].
  - exists (py_min nearest 20%Q). split; [exact Hfood|]. split; [|discriminate].
    intros _.
    assert (Hnn : (0 <= nearest)%Q).
    { apply closest_distance_nonneg; [discriminate | exact Htable]. }
    split; [|split; [|split; [|split]]].
    + apply py_min_glb; [exact Hnn | discriminate].
    + apply py_min_le_r.
    + apply py_min_first.
    + apply py_min_smaller.
    + intros E. apply py_min_smaller. rewrite E. reflexivity.
Qed.

(** ** The guard's features *)

Lemma guard_pursuit_lookup (self : t) (state : GameState) (action : Action)
    (position : Position) :
  get_agent_position state (agent_index self) = Some position ->
  let invaders := get_invader_positions state (agent_index self) in
  let features := GuardAgent.compute_features self state action in
  features !! "num_invaders" = Some (float_of_len (length invaders))
  /\ features !! "distance_to_invader"
     = Some (match invaders with
             | [] => 0%Q
             | _ :: _ => _closest_distance self (Some position) (values invaders) MAX_DIST
             end)
  /\ features !! "frontier_distance"
     = Some (match invaders with
             | [] => _distance_to_frontier self (Some position)
             | _ :: _ => 0%Q
             end).
Proof.
  intros Hpos invaders features. subst features.
  unfold GuardAgent.compute_features. rewrite Hpos. cbv zeta. fold invaders.
  destruct invaders as [|invader others]; cbn [length Nat.ltb Nat.leb];
    repeat split;
    repeat first [ rewrite lookup_insert_eq; reflexivity
                 | rewrite lookup_insert_ne by discriminate ].
Qed.

(** C2: when the guard's position is defined, the two pursuit features
    exclude each other.  If [num_invaders] > 0 then [frontier_distance] is
    0.0 and [distance_to_invader] is the closest distance from the agent
    to the invader positions (at most the distance of each invader, and
    either the distance of one of them or [MAX_DIST]).  If [num_invaders]
    is 0 then [distance_to_invader] is 0.0 and [frontier_distance] is the
    distance to the frontier, which for a non-empty frontier is the
    distance of a nearest frontier cell. *)
Theorem guard_pursuit_features (self : t) (state : GameState) (action : Action)
    (position : Position) :
  get_agent_position state (agent_index self) = Some position ->
  let invaders := values (get_invader_positions state (agent_index self)) in
  let features := GuardAgent.compute_features self state action in
  let to_cell cell := _distance self (Some position) (Some cell) 9999%Q in
  exists num_invaders distance_to_invader frontier_distance,
    features !! "num_invaders" = Some num_invaders
    /\ features !! "distance_to_invader" = Some distance_to_invader
    /\ features !! "frontier_distance" = Some frontier_distance
    /\ num_invaders = inject_Z (Z.of_nat (length invaders))
    /\ ((0 < num_invaders)%Q ->
          frontier_distance = 0%Q
          /\ distance_to_invader = _closest_distance self (Some position) invaders 9999%Q
          /\ (forall invader, invader ∈ invaders ->
                (distance_to_invader <= to_cell invader)%Q)
          /\ (distance_to_invader = 9999%Q
              \/ exists invader, invader ∈ invaders
                   /\ distance_to_invader = to_cell invader))
    /\ ((num_invaders == 0)%Q ->
          distance_to_invader = 0%Q
          /\ frontier_distance = _distance_to_frontier self (Some position)
          /\ (_frontier self <> [] ->
                (forall cell, cell ∈ _frontier self ->
                   (frontier_distance <= to_cell cell)%Q)
                /\ exists cell, cell ∈ _frontier self
                     /\ frontier_distance = to_cell cell)).
Proof.
  intros Hpos invaders features to_cell.
  destruct (guard_pursuit_lookup self state action position Hpos) as (Hn & Hd & Hf).
  fold features in Hn, Hd, Hf.
  eexists _, _, _. split; [exact Hn|]. split; [exact Hd|]. split; [exact Hf|].
  split; [unfold invaders, values; now rewrite length_map|].
  destruct (get_invader_positions state (agent_index self)) as [|invader others] eqn:E.
  - split.
    + intros Hgt. exfalso. revert Hgt. apply Qlt_irrefl.
    + intros _. split; [reflexivity|]. split; [reflexivity|].
      intros Hne. split.
      * intros cell Hin. now apply distance_to_frontier_le_cell.
      * now apply distance_to_frontier_attained.
  - split.
    + intros _. split; [reflexivity|]. split; [reflexivity|]. split.
      * intros target Hin. now apply closest_distance_le_target.
      * apply closest_distance_attained.
    + intros Hz. apply float_of_len_zero in Hz. discriminate.
Qed.

(** ** The key sets of the feature vectors *)

Ltac split_reverse_branch :=
  match goal with
  | |- context [(1 <? length ?l)%nat] =>
      destruct (1 <? length l)%nat; [destruct (index_neg2 l)|]
  end.

Lemma attacker_keys_undefined (self : t) (state : GameState) (action : Action) :
  get_agent_position state (agent_index self) = None ->
  dom (AttackerAgent.compute_features self state action)
  = ({["bias"; "score"; "stopped"; "on_home_side"; "reverse"]} : gset string).
Proof.
  intros Hpos. unfold AttackerAgent.compute_features. rewrite Hpos. cbv zeta.
  split_reverse_branch; rewrite !dom_insert_L, dom_empty_L; set_solver.
Qed.

Lemma attacker_keys_defined (self : t) (state : GameState) (action : Action)
    (position : Position) :
  get_agent_position state (agent_index self) = Some position ->
  dom (AttackerAgent.compute_features self state action)
  = ({["bias"; "score"; "stopped"; "on_home_side"; "reverse";
       "distance_to_food"; "distance_to_ghost"; "ghost_near"]} : gset string).
Proof.
  intros Hpos. unfold AttackerAgent.compute_features. rewrite Hpos. cbv zeta.
  destruct (0 <? length (get_food state (agent_index self)))%nat;
    split_reverse_branch; rewrite !dom_insert_L, dom_empty_L; set_solver.
Qed.

Lemma guard_keys_undefined (self : t) (state : GameState) (action : Action) :
  get_agent_position state (agent_index self) = None ->
  dom (GuardAgent.compute_features self state action)
  = ({["bias"; "stopped"; "on_home_side"; "reverse"]} : gset string).
Proof.
  intros Hpos. unfold GuardAgent.compute_features. rewrite Hpos. cbv zeta.
  split_reverse_branch; rewrite !dom_insert_L, dom_empty_L; set_solver.
Qed.

Lemma guard_keys_defined (self : t) (state : GameState) (action : Action)
    (position : Position) :
  get_agent_position state (agent_index self) = Some position ->
  dom (GuardAgent.compute_features self state action)
  = ({["bias"; "stopped"; "on_home_side"; "reverse";
       "num_invaders"; "distance_to_invader"; "frontier_distance"]} : gset string).
Proof.
  intros Hpos. unfold GuardAgent.compute_features. rewrite Hpos. cbv zeta.
  destruct (0 <? length (get_invader_positions state (agent_index self)))%nat;
    split_reverse_branch; rewrite !dom_insert_L, dom_empty_L; set_solver.
Qed.

Lemma attacker_weight_keys (new_distances : DistancePreComputer) (index : Z)
    (base_weights : gmap string Q) :
  dom (weights (AttackerAgent.__init__ new_distances index base_weights))
  = ({["bias"; "score"; "distance_to_food"; "distance_to_ghost"; "ghost_near";
       "stopped"; "reverse"; "on_home_side"]} : gset string) ∪ dom base_weights.
Proof.
  unfold AttackerAgent.__init__, dict_update, AttackerAgent.role_weights. simpl.
  rewrite dom_union_L, !dom_insert_L, dom_empty_L. set_solver.
Qed.

Lemma guard_weight_keys (new_distances : DistancePreComputer) (index : Z)
    (base_weights : gmap string Q) :
  dom (weights (GuardAgent.__init__ new_distances index base_weights))
  = ({["bias"; "on_home_side"; "stopped"; "reverse"; "num_invaders";
       "distance_to_invader"; "frontier_distance"]} : gset string) ∪ dom base_weights.
Proof.
  unfold GuardAgent.__init__, dict_update, GuardAgent.role_weights. simpl.
  rewrite dom_union_L, !dom_insert_L, dom_empty_L. set_solver.
Qed.

(** C4: when the acting agent's position is undefined, the attacker's
    feature mapping has exactly the keys bias, score, stopped,
    on_home_side and reverse, the guard's has exactly bias, stopped,
    on_home_side and reverse, and each position-dependent key is absent
    from the mapping (a lookup finds nothing, not a zero). *)
Theorem features_without_position (self : t) (state : GameState) (action : Action) :
  get_agent_position state (agent_index self) = None ->
  let attacker := AttackerAgent.compute_features self state action in
  let guard := GuardAgent.compute_features self state action in
  dom attacker = ({["bias"; "score"; "stopped"; "on_home_side"; "reverse"]} : gset string)
  /\ dom guard = ({["bias"; "stopped"; "on_home_side"; "reverse"]} : gset string)
  /\ (forall key : string,
        key ∈ ["distance_to_food"; "distance_to_ghost"; "ghost_near";
               "num_invaders"; "distance_to_invader"; "frontier_distance"] ->
        attacker !! key = None /\ guard !! key = None).
Proof.
  intros Hpos attacker guard.
  pose proof (attacker_keys_undefined self state action Hpos) as Ha.
  pose proof (guard_keys_undefined self state action Hpos) as Hg.
  fold attacker in Ha. fold guard in Hg.
  split; [exact Ha|]. split; [exact Hg|].
  intros key Hkey. rewrite <- !not_elem_of_dom, Ha, Hg. clear - Hkey.
  repeat (apply elem_of_cons in Hkey as [-> | Hkey];
          [split; intros Hin; set_unfold in Hin; intuition discriminate|]).
  inversion Hkey.
Qed.

(** C9: for each role, every key of a feature mapping produced by the
    role's [compute_features] is a key of the weight mapping set up by the
    role's [__init__] (and [game_start] leaves that mapping unchanged):
    the keys produced by the attacker are within bias, score, stopped,
    on_home_side, reverse, distance_to_food, distance_to_ghost and
    ghost_near, those of the guard within bias, stopped, on_home_side,
    reverse, num_invaders, distance_to_invader and frontier_distance, and
    both sets are keys of the role's weights. *)
Theorem feature_keys_have_weights
    (new_distances : DistancePreComputer)
    (compute : DistancePreComputer -> Board -> DistancePreComputer)
    (index : Z) (base_weights : gmap string Q)
    (initial_state state : GameState) (action : Action) :
  let attacker :=
    game_start new_distances compute
      (AttackerAgent.__init__ new_distances index base_weights) initial_state in
  let guard :=
    game_start new_distances compute
      (GuardAgent.__init__ new_distances index base_weights) initial_state in
  let attacker_keys : gset string :=
    {["bias"; "score"; "stopped"; "on_home_side"; "reverse";
      "distance_to_food"; "distance_to_ghost"; "ghost_near"]} in
  let guard_keys : gset string :=
    {["bias"; "stopped"; "on_home_side"; "reverse";
      "num_invaders"; "distance_to_invader"; "frontier_distance"]} in
  (dom (AttackerAgent.compute_features attacker state action) ⊆ attacker_keys
   /\ attacker_keys ⊆ dom (weights attacker)
   /\ weights attacker
      = weights (AttackerAgent.__init__ new_distances index base_weights))
  /\ (dom (GuardAgent.compute_features guard state action) ⊆ guard_keys
      /\ guard_keys ⊆ dom (weights guard)
      /\ weights guard
         = weights (GuardAgent.__init__ new_distances index base_weights)).
Proof.
  intros attacker guard attacker_keys guard_keys. split; split.
  - destruct (get_agent_position state (agent_index attacker)) as [p|] eqn:E.
    + now rewrite (attacker_keys_defined _ _ _ p E).
    + rewrite (attacker_keys_undefined _ _ _ E).
      intros key. unfold attacker_keys. set_unfold. tauto.
  - split; [|reflexivity].
    change (weights attacker)
      with (weights (AttackerAgent.__init__ new_distances index base_weights)).
    rewrite attacker_weight_keys. apply union_subseteq_l'.
    intros key Hkey. set_unfold. tauto.
  - destruct (get_agent_position state (agent_index guard)) as [p|] eqn:E.
    + now rewrite (guard_keys_defined _ _ _ p E).
    + rewrite (guard_keys_undefined _ _ _ E).
      intros key. unfold guard_keys. set_unfold. tauto.
  - split; [|reflexivity].
    change (weights guard)
      with (weights (GuardAgent.__init__ new_distances index base_weights)).
    rewrite guard_weight_keys. apply union_subseteq_l'.
    intros key Hkey. set_unfold. tauto.
Qed.

(** ** The frontier *)

Lemma scan_loop_filter (b : Board) (column : Z) (rows : list Z) (acc : list Position) :
  fold_left
    (fun frontier row =>
       let position := mkPosition row column in
       if is_wall b position then frontier else frontier ++ [position])
    rows acc
  = acc ++ List.filter (fun position => negb (is_wall b position))
             (map (fun row => mkPosition row column) rows).
Proof.
  revert acc. induction rows as [|r rows IH]; intros acc; simpl.
  - now rewrite app_nil_r.
  - rewrite IH. destruct (is_wall b (mkPosition r column)); simpl.
    + reflexivity.
    + now rewrite <- app_assoc.
Qed.

Lemma scan_column_filter (b : Board) (column : Z) :
  scan_column b column
  = List.filter (fun position => negb (is_wall b position))
      (map (fun row => mkPosition row column) (range (height b))).
Proof. unfold scan_column. now rewrite scan_loop_filter. Qed.

Lemma scan_column_cell (b : Board) (column : Z) (cell : Position) :
  cell ∈ scan_column b column
  <-> col cell = column /\ 0 <= row cell < height b /\ is_wall b cell = false.
Proof.
  rewrite scan_column_filter, list_elem_of_In, filter_In, <- list_elem_of_In.
  unfold range. rewrite list_elem_of_fmap, negb_true_iff. split.
  - intros [(r & -> & Hr) Hwall]. apply elem_of_seqZ in Hr. simpl. repeat split; lia || auto.
  - intros (Hc & Hr & Hwall). split; [|exact Hwall].
    exists (row cell). split; [destruct cell; simpl in *; now subst|].
    apply elem_of_seqZ. lia.
Qed.

Lemma right_half_test (w c : Z) :
  Qle_bool (inject_Z w / 2) (inject_Z c) = true <-> w <= 2 * c.
Proof.
  rewrite Qle_bool_iff. unfold Qle, Qdiv, Qmult, Qinv, inject_Z. simpl. lia.
Qed.

Lemma build_frontier_cases (self : t) (state : GameState) :
  let scanned := scan_column (board state) (frontier_col self (board state)) in
  _build_frontier self state
  = match scanned, _initial_position self with
    | [], Some initial => [initial]
    | _, _ => scanned
    end.
Proof.
  intros scanned. unfold _build_frontier. cbv zeta. fold scanned.
  destruct scanned; [destruct (_initial_position self)|]; reflexivity.
Qed.

(** Width 10, three open rows: the agent that starts at column 2 patrols
    column 4 and the one that starts at column 7 patrols column 5. *)
Example frontier_of_samples :
  _frontier Sample.attacker = [mkPosition 0 4; mkPosition 1 4; mkPosition 2 4]
  /\ _frontier Sample.guard = [mkPosition 0 5; mkPosition 1 5; mkPosition 2 5].
Proof. split; reflexivity. Qed.

(** A fully walled column falls back to the initial position. *)
Example frontier_fallback :
  _frontier
    (game_start Sample.unknown Sample.compute (GuardAgent.__init__ Sample.unknown 0 ∅)
       (Sample.state_on Sample.walled_board_with_agent None [] [] []))
  = [mkPosition 0 1].
Proof. reflexivity. Qed.

(** C5, as stated, fails: on a board whose frontier column is all walls
    and which gives the agent no initial position, the frontier cached by
    [game_start] is empty. *)
Lemma frontier_empty_without_initial_position :
  get_agent_initial_position Sample.walled_board 0 = None
  /\ _frontier Sample.stranded_guard = [].
Proof. split; reflexivity. Qed.

(** Without an initial position the open cells of column [w // 2 - 1] are
    still cached: agent 5 is not placed on the open board. *)
Example frontier_without_initial_position :
  get_agent_initial_position Sample.open_board 5 = None
  /\ _frontier
       (game_start Sample.unknown Sample.compute (GuardAgent.__init__ Sample.unknown 5 ∅)
          (Sample.state_on Sample.open_board None [] [] []))
     = [mkPosition 0 4; mkPosition 1 4; mkPosition 2 4].
Proof. split; reflexivity. Qed.

(** C5 (amended): for every board, after [game_start] the cached frontier
    is the list of non-wall cells of the chosen frontier column in row
    order whenever that column has an open cell; when the column has no
    open cell it is the one-element list holding the agent's initial
    position if the board gives it one, and the empty list otherwise.  So
    the cached frontier is non-empty exactly when the frontier column has
    an open cell or the agent has an initial position. *)
Theorem frontier_after_game_start
    (new_distances : DistancePreComputer)
    (compute : DistancePreComputer -> Board -> DistancePreComputer)
    (self : t) (initial_state : GameState) :
  let started := game_start new_distances compute self initial_state in
  let b := board initial_state in
  let initial := get_agent_initial_position b (agent_index self) in
  let open_cells :=
    List.filter (fun position => negb (is_wall b position))
      (map (fun row => mkPosition row (frontier_col started b)) (range (height b))) in
  _initial_position started = initial
  /\ (open_cells <> [] -> _frontier started = open_cells)
  /\ (open_cells = [] ->
        _frontier started
        = match initial with Some position => [position] | None => [] end)
  /\ (_frontier started <> [] <-> open_cells <> [] \/ initial <> None)
  /\ (initial <> None -> _frontier started <> []).
Proof.
  intros started b initial open_cells.
  assert (Hfr : _frontier started
                = match open_cells, initial with
                  | [], Some position => [position]
                  | _, _ => open_cells
                  end).
  { unfold started, game_start. cbn [_frontier]. rewrite build_frontier_cases.
    cbn [_initial_position]. rewrite scan_column_filter. reflexivity. }
  split; [reflexivity|]. split; [|split; [|split]].
  - intros Hne. rewrite Hfr. destruct open_cells; [congruence|reflexivity].
  - intros E. rewrite Hfr, E. now destruct initial.
  - rewrite Hfr. destruct open_cells as [|c cs]; destruct initial as [position|];
      split; intros H; try discriminate; try (left; discriminate);
      try (right; discriminate); try congruence.
    destruct H as [H | H]; congruence.
  - intros Hinit. rewrite Hfr.
    destruct open_cells as [|c cs]; destruct initial as [position|];
      try discriminate; congruence.
Qed.

(** C6: [_build_frontier] enumerates the column [w // 2] when the initial
    position is defined and its column is at least [w / 2] (true
    division), and the column [w // 2 - 1] otherwise: its result is the
    list of non-wall cells [(row, column)] of that column for the rows 0
    to [height - 1] in order, or, when there is none, the fallback to the
    initial position.  For width 10, initial column 2 gives column 4 and
    initial column 7 gives column 5. *)
Theorem frontier_column_choice (self : t) (state : GameState) :
  let b := board state in
  let w := width b in
  let on_right :=
    exists initial, _initial_position self = Some initial
      /\ (inject_Z w / 2 <= inject_Z (col initial))%Q in
  let column := frontier_col self b in
  let open_cells :=
    List.filter (fun position => negb (is_wall b position))
      (map (fun row => mkPosition row column) (range (height b))) in
  (on_right -> column = w / 2)
  /\ (~ on_right -> column = w / 2 - 1)
  /\ scan_column b column = open_cells
  /\ (open_cells <> [] -> _build_frontier self state = open_cells)
  /\ (open_cells = [] ->
        _build_frontier self state
        = match _initial_position self with
          | Some initial => [initial]
          | None => []
          end)
  /\ (forall cell, cell ∈ scan_column b column
        <-> col cell = column /\ 0 <= row cell < height b /\ is_wall b cell = false)
  /\ (forall cell, cell ∈ _build_frontier self state ->
        cell ∈ scan_column b column
        \/ (scan_column b column = [] /\ _initial_position self = Some cell))
  /\ (w = 10 -> forall initial, _initial_position self = Some initial ->
        (col initial = 2 -> column = 4) /\ (col initial = 7 -> column = 5)).
Proof.
  intros b w on_right column open_cells.
  assert (Hscan : scan_column b column = open_cells) by apply scan_column_filter.
  split; [|split; [|split; [exact Hscan|split; [|split; [|split; [|split]]]]]].
  - intros (initial & E & Hle). unfold column, frontier_col. rewrite E.
    apply Qle_bool_iff in Hle. fold b w. now rewrite Hle.
  - intros Hnot. unfold column, frontier_col.
    destruct (_initial_position self) as [initial|] eqn:E; [|reflexivity].
    fold b w. destruct (Qle_bool (inject_Z w / 2) (inject_Z (col initial))) eqn:Hle;
      [|reflexivity].
    exfalso. apply Hnot. exists initial. split; [reflexivity|]. now apply Qle_bool_iff.
  - intros Hne. rewrite build_frontier_cases. cbv zeta. fold b column.
    rewrite Hscan. destruct open_cells; [congruence | reflexivity].
  - intros E. rewrite build_frontier_cases. cbv zeta. fold b column.
    rewrite Hscan, E. now destruct (_initial_position self).
  - intros cell. apply scan_column_cell.
  - intros cell. rewrite build_frontier_cases. cbv zeta. fold b column.
    destruct (scan_column b column) as [|c cs] eqn:Es.
    + destruct (_initial_position self) as [initial|].
      * intros Hin. apply list_elem_of_singleton in Hin as ->. now right.
      * intros Hin. inversion Hin.
    + intros Hin. now left.
  - intros Hw initial E. unfold column, frontier_col. rewrite E. fold b w. rewrite Hw.
    split; intros ->; reflexivity.
Qed.

(** With an odd width the two divisions differ: at width 11 an agent that
    starts in the middle column 5 is not in the right half (5 < 5.5) and
    patrols column 4. *)
Example frontier_col_odd_width :
  frontier_col (StudentCaptureAgent.mk 0 ∅ Sample.unknown [] (Some (mkPosition 0 5)))
    (mkBoard 11 1 (fun _ => false) (fun _ => None)) = 4.
Proof. reflexivity. Qed.

(** ** The theorems at concrete states *)

(** A ghost at distance exactly 3.0 is near; the feature vector of the
    sample attacker. *)
Example attacker_features_sample :
  AttackerAgent.compute_features Sample.attacker Sample.attacker_state "SOUTH"
  = list_to_map
      [ ("bias", 1%Q); ("score", 0%Q); ("stopped", 0%Q); ("on_home_side", 1%Q);
        ("reverse", 1%Q); ("distance_to_food", 20%Q);
        ("distance_to_ghost", 3%Q); ("ghost_near", 1%Q) ].
Proof. vm_compute. reflexivity. Qed.

(** One invader at distance 4.0. *)
Example guard_features_sample :
  GuardAgent.compute_features Sample.guard Sample.guard_state STOP
  = list_to_map
      [ ("bias", 1%Q); ("stopped", 1%Q); ("on_home_side", 1%Q); ("reverse", 0%Q);
        ("num_invaders", 1%Q); ("distance_to_invader", 4%Q);
        ("frontier_distance", 0%Q) ].
Proof. vm_compute. reflexivity. Qed.

Lemma attacker_ghost_near_iff_witness :
  get_agent_position Sample.attacker_state (agent_index Sample.attacker)
  = Some (mkPosition 1 2)
  /\ exists ghost_near,
       AttackerAgent.compute_features Sample.attacker Sample.attacker_state STOP
         !! "ghost_near" = Some ghost_near
       /\ (ghost_near = 1%Q \/ ghost_near = 0%Q)
       /\ ((ghost_near == 1)%Q
           <-> (_closest_distance Sample.attacker (Some (mkPosition 1 2))
                  (values (get_nonscared_opponent_positions Sample.attacker_state
                             (agent_index Sample.attacker))) 9999%Q <= 3)%Q)
       /\ AttackerAgent.compute_features Sample.attacker Sample.attacker_state STOP
            !! "distance_to_ghost"
          = Some (py_min
                    (_closest_distance Sample.attacker (Some (mkPosition 1 2))
                       (values (get_nonscared_opponent_positions Sample.attacker_state
                                  (agent_index Sample.attacker))) 9999%Q) 12%Q).
Proof.
  split; [reflexivity|].
  exact (attacker_ghost_near_iff Sample.attacker Sample.attacker_state STOP
           (mkPosition 1 2) eq_refl).
Defined.

Lemma attacker_no_ghost_visible_witness :
  get_agent_position Sample.quiet_state (agent_index Sample.attacker)
  = Some (mkPosition 1 2)
  /\ get_nonscared_opponent_positions Sample.quiet_state (agent_index Sample.attacker) = []
  /\ AttackerAgent.compute_features Sample.attacker Sample.quiet_state STOP
       !! "distance_to_ghost" = Some 12%Q
  /\ AttackerAgent.compute_features Sample.attacker Sample.quiet_state STOP
       !! "ghost_near" = Some 0%Q.
Proof.
  split; [reflexivity|]. split; [reflexivity|].
  exact (attacker_no_ghost_visible Sample.attacker Sample.quiet_state STOP
           (mkPosition 1 2) eq_refl eq_refl).
Defined.

Lemma manhattan_nonneg (s e : Position) (default : Q) :
  (0 <= get_distance_default Sample.manhattan s e default)%Q.
Proof.
  unfold Qle. simpl. lia.
Qed.

Lemma attacker_distance_to_food_witness :
  get_agent_position Sample.attacker_state (agent_index Sample.attacker)
  = Some (mkPosition 1 2)
  /\ (forall s e,
        0 <= get_distance_default (_distances Sample.attacker) s e 9999)%Q
  /\ exists distance_to_food,
       AttackerAgent.compute_features Sample.attacker Sample.attacker_state STOP
         !! "distance_to_food" = Some distance_to_food
       /\ (get_food Sample.attacker_state (agent_index Sample.attacker) <> [] ->
             (0 <= distance_to_food)%Q /\ (distance_to_food <= 20)%Q
             /\ ((_closest_distance Sample.attacker (Some (mkPosition 1 2))
                    (get_food Sample.attacker_state (agent_index Sample.attacker))
                    9999%Q <= 20)%Q ->
                 distance_to_food
                 = _closest_distance Sample.attacker (Some (mkPosition 1 2))
                     (get_food Sample.attacker_state (agent_index Sample.attacker))
                     9999%Q)
             /\ ((20 < _closest_distance Sample.attacker (Some (mkPosition 1 2))
                         (get_food Sample.attacker_state (agent_index Sample.attacker))
                         9999%Q)%Q ->
                 distance_to_food = 20%Q)
             /\ ((_closest_distance Sample.attacker (Some (mkPosition 1 2))
                    (get_food Sample.attacker_state (agent_index Sample.attacker))
                    9999%Q == 25)%Q ->
                 distance_to_food = 20%Q))
       /\ (get_food Sample.attacker_state (agent_index Sample.attacker) = [] ->
             distance_to_food = 0%Q).
Proof.
  split; [reflexivity|]. split; [exact (fun s e => manhattan_nonneg s e 9999%Q)|].
  exact (attacker_distance_to_food Sample.attacker Sample.attacker_state STOP
           (mkPosition 1 2) eq_refl (fun s e => manhattan_nonneg s e 9999%Q)).
Defined.

Lemma guard_pursuit_features_witness :
  get_agent_position Sample.guard_state (agent_index Sample.guard)
  = Some (mkPosition 1 7)
  /\ exists num_invaders distance_to_invader frontier_distance,
       GuardAgent.compute_features Sample.guard Sample.guard_state STOP
         !! "num_invaders" = Some num_invaders
       /\ GuardAgent.compute_features Sample.guard Sample.guard_state STOP
            !! "distance_to_invader" = Some distance_to_invader
       /\ GuardAgent.compute_features Sample.guard Sample.guard_state STOP
            !! "frontier_distance" = Some frontier_distance
       /\ num_invaders = 1%Q
       /\ ((0 < num_invaders)%Q ->
             frontier_distance = 0%Q /\ distance_to_invader = 4%Q).
Proof.
  split; [reflexivity|].
  destruct (guard_pursuit_features Sample.guard Sample.guard_state STOP
              (mkPosition 1 7) eq_refl)
    as (n & d & f & Hn & Hd & Hf & En & Hpos & _).
  exists n, d, f. split; [exact Hn|]. split; [exact Hd|]. split; [exact Hf|].
  split; [exact En|].
  intros Hgt. destruct (Hpos Hgt) as (Ef & Ed & _). split; [exact Ef | exact Ed].
Defined.

Lemma features_without_position_witness :
  get_agent_position Sample.eaten_state (agent_index Sample.attacker) = None
  /\ dom (AttackerAgent.compute_features Sample.attacker Sample.eaten_state STOP)
     = ({["bias"; "score"; "stopped"; "on_home_side"; "reverse"]} : gset string)
  /\ dom (GuardAgent.compute_features Sample.attacker Sample.eaten_state STOP)
     = ({["bias"; "stopped"; "on_home_side"; "reverse"]} : gset string)
  /\ (forall key : string,
        key ∈ ["distance_to_food"; "distance_to_ghost"; "ghost_near";
               "num_invaders"; "distance_to_invader"; "frontier_distance"] ->
        AttackerAgent.compute_features Sample.attacker Sample.eaten_state STOP !! key
        = None
        /\ GuardAgent.compute_features Sample.attacker Sample.eaten_state STOP !! key
           = None).
Proof.
  split; [reflexivity|].
  exact (features_without_position Sample.attacker Sample.eaten_state STOP eq_refl).
Defined.

(** With no invader in sight the sample guard, two columns away from its
    frontier column, reports that distance; an agent whose frontier is
    empty reports 0.0. *)
Example guard_patrol_sample :
  GuardAgent.compute_features Sample.guard
    (Sample.state_on Sample.open_board (Some (mkPosition 1 7)) [] [] []) STOP
    !! "frontier_distance" = Some 2%Q
  /\ _distance_to_frontier Sample.stranded_guard (Some (mkPosition 1 7)) = 0%Q.
Proof. split; vm_compute; reflexivity. Qed.

(** A ghost just beyond distance 3 (here 4) is not near, and a ghost
    farther than the cap is reported at 12.0. *)
Example attacker_far_ghost_sample :
  let state :=
    Sample.state_on Sample.open_board (Some (mkPosition 1 2)) []
      [(1, mkPosition 1 6); (3, mkPosition 1 20)] [] in
  AttackerAgent.compute_features Sample.attacker state STOP !! "ghost_near" = Some 0%Q
  /\ AttackerAgent.compute_features Sample.attacker state STOP !! "distance_to_ghost"
     = Some 4%Q
  /\ AttackerAgent.compute_features Sample.attacker
       (Sample.state_on Sample.open_board (Some (mkPosition 1 2)) []
          [(3, mkPosition 1 20)] []) STOP !! "distance_to_ghost"
     = Some 12%Q.
Proof. repeat split; vm_compute; reflexivity. Qed.

(** * Further properties of the module *)

(** ** The position-independent features *)

Ltac feature_lookup :=
  repeat first
    [ rewrite lookup_insert_eq
    | rewrite lookup_insert_ne by discriminate
    | rewrite lookup_empty ].

Ltac split_features :=
  repeat match goal with
    | |- context [(1 <? length ?l)%nat] => destruct (1 <? length l)%nat eqn:?
    | |- context [(0 <? length ?l)%nat] => destruct (0 <? length l)%nat eqn:?
    | |- context [match index_neg2 ?l with _ => _ end] => destruct (index_neg2 l) eqn:?
    | |- context [match get_agent_position ?s ?i with _ => _ end] =>
        destruct (get_agent_position s i) eqn:?
    end.

Lemma index_neg2_two_last {A : Type} (earlier : list A) (previous last : A) :
  index_neg2 (earlier ++ [previous; last]) = Some previous.
Proof.
  unfold index_neg2. apply list_lookup_middle. rewrite length_app. simpl. lia.
Qed.

Lemma two_last_split {A : Type} (l : list A) :
  (1 < length l)%nat -> exists earlier previous last, l = earlier ++ [previous; last].
Proof.
  intros Hlen. rewrite <- (rev_involutive l) in *.
  destruct (rev l) as [|last [|previous r]]; simpl in Hlen.
  - lia.
  - lia.
  - exists (rev r), previous, last. simpl. now rewrite <- app_assoc.
Qed.

Lemma two_last_length {A : Type} (earlier : list A) (previous last : A) :
  (1 <? length (earlier ++ [previous; last]))%nat = true.
Proof. apply Nat.ltb_lt. rewrite length_app. simpl. lia. Qed.

(** The value both extractors store under [reverse]. *)
Lemma reverse_lookup (self : t) (state : GameState) (action : Action) :
  let actions := get_agent_actions state (agent_index self) in
  let value :=
    if (1 <? length actions)%nat then
      match index_neg2 actions with
      | Some previous => float_of_bool (Action_eqb action (get_reverse_action state previous))
      | None => 0%Q
      end
    else 0%Q in
  AttackerAgent.compute_features self state action !! "reverse" = Some value
  /\ GuardAgent.compute_features self state action !! "reverse" = Some value.
Proof.
  intros actions value. subst value actions.
  unfold AttackerAgent.compute_features, GuardAgent.compute_features. cbv zeta.
  split; split_features; feature_lookup; reflexivity.
Qed.

(** X1: whatever the state and whether or not the position is defined,
    both extractors store [bias] = 1.0, the same 0/1 value under [stopped]
    (1.0 exactly when the action is STOP) and the same 0/1 value under
    [on_home_side] (1.0 exactly when [is_ghost] holds for the agent); the
    attacker stores the normalized score under [score], a key the guard
    never has. *)
Theorem shared_feature_values (self : t) (state : GameState) (action : Action) :
  let attacker := AttackerAgent.compute_features self state action in
  let guard := GuardAgent.compute_features self state action in
  attacker !! "bias" = Some 1%Q /\ guard !! "bias" = Some 1%Q
  /\ attacker !! "score" = Some (get_normalized_score state (agent_index self))
  /\ guard !! "score" = None
  /\ (exists stopped,
        attacker !! "stopped" = Some stopped /\ guard !! "stopped" = Some stopped
        /\ (stopped = 1%Q \/ stopped = 0%Q)
        /\ (stopped = 1%Q <-> action = STOP))
  /\ (exists on_home_side,
        attacker !! "on_home_side" = Some on_home_side
        /\ guard !! "on_home_side" = Some on_home_side
        /\ (on_home_side = 1%Q \/ on_home_side = 0%Q)
        /\ (on_home_side = 1%Q <-> is_ghost state (agent_index self) = true)).
Proof.
  intros attacker guard. subst attacker guard.
  unfold AttackerAgent.compute_features, GuardAgent.compute_features. cbv zeta.
  repeat apply conj.
  - split_features; feature_lookup; reflexivity.
  - split_features; feature_lookup; reflexivity.
  - split_features; feature_lookup; reflexivity.
  - split_features; feature_lookup; reflexivity.
  - exists (float_of_bool (Action_eqb action STOP)). split; [|split; [|split]].
    + split_features; feature_lookup; reflexivity.
    + split_features; feature_lookup; reflexivity.
    + destruct (Action_eqb action STOP); auto.
    + unfold Action_eqb. destruct (bool_decide_reflect (action = STOP)); simpl;
        split; intros E; auto; try discriminate; contradiction.
  - exists (float_of_bool (is_ghost state (agent_index self))). split; [|split; [|split]].
    + split_features; feature_lookup; reflexivity.
    + split_features; feature_lookup; reflexivity.
    + destruct (is_ghost state (agent_index self)); auto.
    + destruct (is_ghost state (agent_index self)); simpl;
        split; intros E; try reflexivity; discriminate.
Qed.

(** X2: both extractors store the same 0/1 value under [reverse]; it is
    1.0 exactly when the action history ends with two actions [previous;
    last] and the candidate action is the reverse of [previous], the
    second most recent one.  With fewer than two past actions it is
    0.0. *)
Theorem reverse_feature (self : t) (state : GameState) (action : Action) :
  let actions := get_agent_actions state (agent_index self) in
  exists reverse,
    AttackerAgent.compute_features self state action !! "reverse" = Some reverse
    /\ GuardAgent.compute_features self state action !! "reverse" = Some reverse
    /\ (reverse = 1%Q \/ reverse = 0%Q)
    /\ (reverse = 1%Q
        <-> exists earlier previous last,
              actions = earlier ++ [previous; last]
              /\ action = get_reverse_action state previous)
    /\ ((length actions < 2)%nat -> reverse = 0%Q).
Proof.
  intros actions.
  destruct (reverse_lookup self state action) as [Ha Hg]. cbv zeta in Ha, Hg.
  fold actions in Ha, Hg.
  eexists. split; [exact Ha|]. split; [exact Hg|].
  destruct (1 <? length actions)%nat eqn:Hlen.
  - apply Nat.ltb_lt in Hlen.
    destruct (two_last_split actions Hlen) as (earlier & previous & last & E).
    rewrite E, index_neg2_two_last.
    unfold Action_eqb.
    destruct (bool_decide_reflect (action = get_reverse_action state previous))
      as [Heq | Hne]; simpl.
    + split; [now left|]. split.
      * split; [|reflexivity]. intros _. now exists earlier, previous, last.
      * rewrite length_app. simpl. lia.
    + split; [now right|]. split.
      * split; [discriminate|]. intros (e' & p' & l' & E' & Hact).
        apply app_inj_2 in E' as [_ E']; [|reflexivity].
        injection E' as -> ->. contradiction.
      * rewrite length_app. simpl. lia.
  - apply Nat.ltb_ge in Hlen. split; [now right|]. split.
    + split; [discriminate|]. intros (e' & p' & l' & E' & _).
      rewrite E', length_app in Hlen. simpl in Hlen. lia.
    + reflexivity.
Qed.

(** X3: when the position is defined, the attacker's mapping has exactly
    its eight keys and the guard's exactly its seven; no key of the
    pursuit or food features crosses roles. *)
Theorem feature_keys_with_position (self : t) (state : GameState) (action : Action)
    (position : Position) :
  get_agent_position state (agent_index self) = Some position ->
  dom (AttackerAgent.compute_features self state action)
  = ({["bias"; "score"; "stopped"; "on_home_side"; "reverse";
       "distance_to_food"; "distance_to_ghost"; "ghost_near"]} : gset string)
  /\ dom (GuardAgent.compute_features self state action)
     = ({["bias"; "stopped"; "on_home_side"; "reverse";
          "num_invaders"; "distance_to_invader"; "frontier_distance"]} : gset string)
  /\ dom (AttackerAgent.compute_features self state action)
       ∩ dom (GuardAgent.compute_features self state action)
     = ({["bias"; "stopped"; "on_home_side"; "reverse"]} : gset string).
Proof.
  intros Hpos.
  rewrite (attacker_keys_defined self state action position Hpos).
  rewrite (guard_keys_defined self state action position Hpos).
  split; [reflexivity|]. split; [reflexivity|].
  apply set_eq. intros key. set_unfold. split.
  - intros [Ha Hg]. intuition congruence.
  - tauto.
Qed.

(** ** The attacker's ghost features together *)

(** X4: when the attacker's position is defined and the distance table
    returns non-negative values, [distance_to_ghost] lies in [0.0, 12.0];
    it is the closest-ghost distance itself when that is at most 12.0 and
    exactly 12.0 when it is larger. *)
Theorem attacker_distance_to_ghost_bounds (self : t) (state : GameState)
    (action : Action) (position : Position) :
  get_agent_position state (agent_index self) = Some position ->
  (forall s e, 0 <= get_distance_default (_distances self) s e 9999)%Q ->
  let nearest :=
    _closest_distance self (Some position)
      (values (get_nonscared_opponent_positions state (agent_index self))) 9999%Q in
  exists distance_to_ghost,
    AttackerAgent.compute_features self state action !! "distance_to_ghost"
      = Some distance_to_ghost
    /\ (0 <= distance_to_ghost)%Q /\ (distance_to_ghost <= 12)%Q
    /\ ((nearest <= 12)%Q -> distance_to_ghost = nearest)
    /\ ((12 < nearest)%Q -> distance_to_ghost = 12%Q).
Proof.
  intros Hpos Htable nearest.
  destruct (attacker_ghost_features self state action position Hpos) as [_ Hcap].
  fold MAX_DIST nearest in Hcap |- *.
  exists (py_min nearest 12%Q). split; [exact Hcap|].
  assert (Hnn : (0 <= nearest)%Q).
  { apply closest_distance_nonneg; [discriminate | exact Htable]. }
  split; [|split; [|split]].
  - apply py_min_glb; [exact Hnn | discriminate].
  - apply py_min_le_r.
  - apply py_min_first.
  - apply py_min_smaller.
Qed.

(** X5: when the attacker's position is defined, the two ghost features
    agree: [ghost_near] is 1.0 exactly when the capped [distance_to_ghost]
    is at most 3.0, and then [distance_to_ghost] is the uncapped closest
    distance.  No assumption on the table is needed. *)
Theorem attacker_ghost_features_agree (self : t) (state : GameState)
    (action : Action) (position : Position) :
  get_agent_position state (agent_index self) = Some position ->
  exists ghost_near distance_to_ghost,
    AttackerAgent.compute_features self state action !! "ghost_near" = Some ghost_near
    /\ AttackerAgent.compute_features self state action !! "distance_to_ghost"
       = Some distance_to_ghost
    /\ (ghost_near = 1%Q <-> (distance_to_ghost <= 3)%Q)
    /\ (ghost_near = 1%Q ->
          distance_to_ghost
          = _closest_distance self (Some position)
              (values (get_nonscared_opponent_positions state (agent_index self)))
              9999%Q).
Proof.
  intros Hpos.
  destruct (attacker_ghost_features self state action position Hpos) as [Hnear Hcap].
  cbv zeta in Hnear, Hcap. fold MAX_DIST.
  set (nearest := _closest_distance self (Some position) _ MAX_DIST) in *.
  eexists _, _. split; [exact Hnear|]. split; [exact Hcap|].
  destruct (Qle_bool nearest 3%Q) eqn:Hle; simpl.
  - apply Qle_bool_iff in Hle.
    assert (E : py_min nearest 12%Q = nearest).
    { apply py_min_first. eapply Qle_trans; [exact Hle | discriminate]. }
    rewrite E. split; [|reflexivity]. split; [now intros _ | reflexivity].
  - split; [|discriminate]. split; [discriminate|].
    intros Hcapped. exfalso.
    destruct (py_min_cases nearest 12%Q) as [E | E]; rewrite E in Hcapped.
    + apply Qle_bool_iff in Hcapped. congruence.
    + apply Hcapped. reflexivity.
Qed.

(** ** More on the distance queries *)

Lemma closest_distance_subset (self : t) (p : Position)
    (targets more : list Position) (default : Q) :
  (forall target, target ∈ targets -> target ∈ more) ->
  (_closest_distance self (Some p) more default
   <= _closest_distance self (Some p) targets default)%Q.
Proof.
  intros Hsub.
  destruct (closest_distance_attained self p targets default)
    as [-> | (target & Hin & ->)].
  - apply closest_distance_le_default.
  - apply closest_distance_le_target. now apply Hsub.
Qed.

(** X6: with a defined start, [_closest_distance] never exceeds the
    supplied default, whatever the table returns, and looking at more
    targets can only lower it. *)
Theorem closest_distance_antitone (self : t) (p : Position)
    (targets more : list Position) (default : Q) :
  (_closest_distance self (Some p) targets default <= default)%Q
  /\ ((forall target, target ∈ targets -> target ∈ more) ->
      (_closest_distance self (Some p) more default
       <= _closest_distance self (Some p) targets default)%Q).
Proof.
  split; [apply closest_distance_le_default | apply closest_distance_subset].
Qed.

(** X7: [_closest_distance] does not depend on the order in which the
    targets are iterated, nor on repetitions: two collections with the
    same members give equal distances. *)
Theorem closest_distance_order_irrelevant (self : t) (start : option Position)
    (targets targets' : list Position) (default : Q) :
  (forall target, target ∈ targets <-> target ∈ targets') ->
  (_closest_distance self start targets default
   == _closest_distance self start targets' default)%Q.
Proof.
  intros Hsame. destruct start as [p|]; [|reflexivity].
  apply Qle_antisym.
  - apply closest_distance_subset. intros target. apply Hsame.
  - apply closest_distance_subset. intros target. apply Hsame.
Qed.

Lemma distance_to_frontier_nonneg (self : t) (position : option Position) :
  (forall s e, 0 <= get_distance_default (_distances self) s e MAX_DIST)%Q ->
  (0 <= _distance_to_frontier self position)%Q.
Proof.
  intros Htable. destruct position as [p|]; [|discriminate].
  destruct (_frontier self) as [|entry entries] eqn:E.
  - unfold _distance_to_frontier. rewrite E. discriminate.
  - destruct (distance_to_frontier_attained self p) as (cell & _ & ->).
    + rewrite E. discriminate.
    + simpl. apply Htable.
Qed.

(** X8: for a defined position and a non-empty frontier, measuring the
    frontier with [_closest_distance] gives [_distance_to_frontier] cut
    off at [MAX_DIST]: the two queries differ only in that the first is
    seeded with the default. *)
Theorem closest_distance_to_frontier (self : t) (p : Position) :
  _frontier self <> [] ->
  (_closest_distance self (Some p) (_frontier self) MAX_DIST
   == py_min MAX_DIST (_distance_to_frontier self (Some p)))%Q.
Proof.
  intros Hne. apply Qle_antisym.
  - apply py_min_glb; [apply closest_distance_le_default|].
    destruct (distance_to_frontier_attained self p Hne) as (cell & Hin & ->).
    now apply closest_distance_le_target.
  - destruct (closest_distance_attained self p (_frontier self) MAX_DIST)
      as [-> | (cell & Hin & ->)].
    + apply py_min_le_l.
    + eapply Qle_trans; [apply py_min_le_r|]. now apply distance_to_frontier_le_cell.
Qed.

(** ** More on the guard's features *)

(** X9: a guard that sees no invader and stands on a cell of its frontier
    reports [frontier_distance] equal to 0.0, provided the table is
    non-negative and gives 0 for that cell to itself. *)
Theorem guard_on_frontier (self : t) (state : GameState) (action : Action)
    (position : Position) :
  get_agent_position state (agent_index self) = Some position ->
  get_invader_positions state (agent_index self) = [] ->
  position ∈ _frontier self ->
  (forall s e, 0 <= get_distance_default (_distances self) s e MAX_DIST)%Q ->
  (get_distance_default (_distances self) position position MAX_DIST == 0)%Q ->
  exists frontier_distance,
    GuardAgent.compute_features self state action !! "frontier_distance"
      = Some frontier_distance
    /\ (frontier_distance == 0)%Q.
Proof.
  intros Hpos Hnone Hin Htable Hzero.
  destruct (guard_pursuit_lookup self state action position Hpos) as (_ & _ & Hf).
  cbv zeta in Hf. rewrite Hnone in Hf.
  eexists. split; [exact Hf|]. apply Qle_antisym.
  - apply (Qle_trans _ (_distance self (Some position) (Some position) MAX_DIST)).
    + apply distance_to_frontier_le_cell. exact Hin.
    + simpl. rewrite Hzero. apply Qle_refl.
  - now apply distance_to_frontier_nonneg.
Qed.

(** X10: when the guard's position is defined and the table returns
    non-negative values, its three pursuit features are non-negative, and
    [distance_to_invader] is at most [MAX_DIST] = 9999.0. *)
Theorem guard_pursuit_bounds (self : t) (state : GameState) (action : Action)
    (position : Position) :
  get_agent_position state (agent_index self) = Some position ->
  (forall s e, 0 <= get_distance_default (_distances self) s e 9999)%Q ->
  exists num_invaders distance_to_invader frontier_distance,
    GuardAgent.compute_features self state action !! "num_invaders" = Some num_invaders
    /\ GuardAgent.compute_features self state action !! "distance_to_invader"
       = Some distance_to_invader
    /\ GuardAgent.compute_features self state action !! "frontier_distance"
       = Some frontier_distance
    /\ (0 <= num_invaders)%Q
    /\ (0 <= distance_to_invader)%Q /\ (distance_to_invader <= 9999)%Q
    /\ (0 <= frontier_distance)%Q.
Proof.
  intros Hpos Htable.
  destruct (guard_pursuit_lookup self state action position Hpos) as (Hn & Hd & Hf).
  cbv zeta in Hn, Hd, Hf.
  eexists _, _, _. split; [exact Hn|]. split; [exact Hd|]. split; [exact Hf|].
  split.
  { unfold float_of_len, Qle. simpl. lia. }
  destruct (get_invader_positions state (agent_index self)) as [|invader others].
  - split; [discriminate|]. split; [discriminate|].
    now apply distance_to_frontier_nonneg.
  - split; [|split; [|discriminate]].
    + apply closest_distance_nonneg; [discriminate | exact Htable].
    + apply closest_distance_le_default.
Qed.

(** ** The shape of the frontier *)

Lemma increasing_seqZ (m n : Z) : StronglySorted Z.lt (seqZ m n).
Proof.
  remember (Z.to_nat n) as k eqn:Hk. revert m n Hk.
  induction k as [|k IH]; intros m n Hk.
  - rewrite seqZ_nil by lia. constructor.
  - rewrite seqZ_cons by lia. constructor.
    + apply IH. lia.
    + apply Forall_seqZ. lia.
Qed.

Lemma increasing_filter (keep : Z -> bool) (l : list Z) :
  StronglySorted Z.lt l -> StronglySorted Z.lt (List.filter keep l).
Proof.
  induction 1 as [|x l Hsorted IH Hall]; simpl; [constructor|].
  destruct (keep x); [|exact IH].
  constructor; [exact IH|].
  apply Forall_forall. intros y Hy.
  apply list_elem_of_In, filter_In in Hy as [Hy _].
  rewrite Forall_forall in Hall. apply Hall. now apply list_elem_of_In.
Qed.

Lemma increasing_NoDup (l : list Z) : StronglySorted Z.lt l -> NoDup l.
Proof.
  induction 1 as [|x l Hsorted IH Hall]; [apply NoDup_nil_2|].
  apply NoDup_cons. split; [|exact IH].
  intros Hin. rewrite Forall_forall in Hall. specialize (Hall x Hin). lia.
Qed.

Lemma scan_column_rows (b : Board) (column : Z) :
  map row (scan_column b column)
  = List.filter (fun r => negb (is_wall b (mkPosition r column))) (range (height b)).
Proof.
  rewrite scan_column_filter. induction (range (height b)) as [|r rows IH]; simpl.
  - reflexivity.
  - destruct (is_wall b (mkPosition r column)); simpl; now rewrite IH.
Qed.

(** X11: whatever the board and the initial position, the frontier built
    by [_build_frontier] lists its cells by strictly increasing row, so it
    has no repeated cell, and it has at most [max(height, 1)] cells. *)
Theorem build_frontier_shape (self : t) (state : GameState) :
  let frontier := _build_frontier self state in
  StronglySorted Z.lt (map row frontier)
  /\ NoDup frontier
  /\ (length frontier <= Z.to_nat (Z.max (height (board state)) 1))%nat.
Proof.
  intros frontier.
  assert (Hscan : StronglySorted Z.lt
                    (map row (scan_column (board state)
                                (frontier_col self (board state))))).
  { rewrite scan_column_rows. apply increasing_filter, increasing_seqZ. }
  assert (Hlen : (length (scan_column (board state) (frontier_col self (board state)))
                  <= Z.to_nat (height (board state)))%nat).
  { rewrite <- (length_map row), scan_column_rows.
    etransitivity; [apply filter_length_le|]. unfold range. now rewrite length_seqZ. }
  assert (Hsorted : StronglySorted Z.lt (map row frontier)).
  { unfold frontier. rewrite build_frontier_cases. cbv zeta.
    destruct (scan_column _ _) as [|c cs]; [|exact Hscan].
    destruct (_initial_position self); repeat constructor. }
  split; [exact Hsorted|]. split.
  - apply (NoDup_fmap_1 row). now apply increasing_NoDup.
  - unfold frontier. rewrite build_frontier_cases. cbv zeta.
    destruct (scan_column _ _) as [|c cs].
    + destruct (_initial_position self); simpl; lia.
    + lia.
Qed.

(** X12: in integers, the frontier column is [w // 2] exactly when the
    initial position is defined and twice its column is at least the
    width.  For such an agent the frontier column is never to the right
    of the initial column; for an agent of the left half on a board of
    even width it is never to the left of it.  With no initial position
    the column is [w // 2 - 1]. *)
Theorem frontier_col_integers (self : t) (b : Board) :
  (forall initial, _initial_position self = Some initial ->
     (width b <= 2 * col initial ->
        frontier_col self b = width b / 2 /\ frontier_col self b <= col initial)
     /\ (2 * col initial < width b ->
           frontier_col self b = width b / 2 - 1
           /\ (Z.even (width b) = true -> col initial <= frontier_col self b)))
  /\ (_initial_position self = None -> frontier_col self b = width b / 2 - 1).
Proof.
  split.
  - intros initial E. unfold frontier_col. rewrite E. split.
    + intros Hright. rewrite (proj2 (right_half_test _ _) Hright).
      split; [reflexivity|]. apply Z.div_le_upper_bound; lia.
    + intros Hleft.
      destruct (Qle_bool (inject_Z (width b) / 2) (inject_Z (col initial))) eqn:Hq.
      * apply right_half_test in Hq. lia.
      * split; [reflexivity|]. intros Heven.
        apply Z.even_spec in Heven as [k Hk]. rewrite Hk in *.
        rewrite (Z.mul_comm 2 k), Z.div_mul by lia. lia.
  - intros E. unfold frontier_col. now rewrite E.
Qed.

(** X13: [game_start] keeps the agent index and the weights and rebuilds
    everything else from the initial state: two agents with the same index
    and weights are equal after [game_start] on the same state, whatever
    they had cached before, and running [game_start] again on the same
    state changes nothing. *)
Theorem game_start_resets
    (new_distances : DistancePreComputer)
    (compute : DistancePreComputer -> Board -> DistancePreComputer)
    (self other : t) (initial_state : GameState) :
  let started := game_start new_distances compute self initial_state in
  agent_index started = agent_index self
  /\ weights started = weights self
  /\ _initial_position started
     = get_agent_initial_position (board initial_state) (agent_index self)
  /\ (agent_index other = agent_index self -> weights other = weights self ->
      game_start new_distances compute other initial_state = started)
  /\ game_start new_distances compute started initial_state = started.
Proof.
  intros started. split; [reflexivity|]. split; [reflexivity|]. split; [reflexivity|].
  split.
  - intros Hi Hw. unfold started, game_start, _build_frontier, frontier_col.
    cbn [_initial_position agent_index weights _distances _frontier].
    now rewrite Hi, Hw.
  - reflexivity.
Qed.

(** ** The weights *)

(** X14: after [__init__], each key of the role's table carries the
    role's constant, whatever base weights were passed in, and every other
    key keeps its base weight: [weights.update] overrides and never
    removes. *)
Theorem role_weights_override (new_distances : DistancePreComputer) (index : Z)
    (base_weights : gmap string Q) (key : string) :
  let attacker := weights (AttackerAgent.__init__ new_distances index base_weights) in
  let guard := weights (GuardAgent.__init__ new_distances index base_weights) in
  (forall w, AttackerAgent.role_weights !! key = Some w -> attacker !! key = Some w)
  /\ (AttackerAgent.role_weights !! key = None -> attacker !! key = base_weights !! key)
  /\ (forall w, GuardAgent.role_weights !! key = Some w -> guard !! key = Some w)
  /\ (GuardAgent.role_weights !! key = None -> guard !! key = base_weights !! key).
Proof.
  intros attacker guard. subst attacker guard.
  unfold AttackerAgent.__init__, GuardAgent.__init__, dict_update. cbn [weights].
  repeat split.
  - intros w E. now apply lookup_union_Some_l.
  - intros E. now apply lookup_union_r.
  - intros w E. now apply lookup_union_Some_l.
  - intros E. now apply lookup_union_r.
Qed.

(** ** The team *)

(** X15: for every module name, [create_team] returns two descriptors,
    the attacker first and the guard second, whose names extend the module
    name and differ from each other. *)
Theorem create_team_descriptors (module_name : string) :
  exists offensive defensive,
    create_team module_name = [offensive; defensive]
    /\ name offensive = module_name +:+ ".AttackerAgent"
    /\ name defensive = module_name +:+ ".GuardAgent"
    /\ name offensive <> name defensive.
Proof.
  eexists _, _. split; [reflexivity|]. split; [reflexivity|]. split; [reflexivity|].
  simpl. intros E. apply (inj (String.app module_name)) in E. discriminate.
Qed.

(** ** From [game_start] to the features *)

(** X16: after [game_start] on a board that gives the agent an initial
    position, a guard whose position is defined and who sees no invader
    reports as [frontier_distance] the entry of the table computed from
    that board for some cell of its cached frontier, and no cell of the
    frontier is closer. *)
Theorem guard_patrol_after_game_start
    (new_distances : DistancePreComputer)
    (compute : DistancePreComputer -> Board -> DistancePreComputer)
    (self : t) (initial_state state : GameState) (action : Action)
    (initial position : Position) :
  get_agent_initial_position (board initial_state) (agent_index self) = Some initial ->
  get_agent_position state (agent_index self) = Some position ->
  get_invader_positions state (agent_index self) = [] ->
  let started := game_start new_distances compute self initial_state in
  let table := compute new_distances (board initial_state) in
  exists cell,
    cell ∈ _frontier started
    /\ GuardAgent.compute_features started state action !! "frontier_distance"
       = Some (get_distance_default table position cell 9999%Q)
    /\ (forall other, other ∈ _frontier started ->
          (get_distance_default table position cell 9999
           <= get_distance_default table position other 9999)%Q).
Proof.
  intros Hinit Hpos Hnone started table.
  assert (Hne : _frontier started <> []).
  { unfold started, game_start. cbn [_frontier]. rewrite build_frontier_cases.
    cbn [_initial_position]. rewrite Hinit.
    destruct (scan_column _ _); discriminate. }
  destruct (guard_pursuit_lookup started state action position Hpos) as (_ & _ & Hf).
  cbv zeta in Hf. change (agent_index started) with (agent_index self) in Hf.
  rewrite Hnone in Hf.
  destruct (distance_to_frontier_attained started position Hne) as (cell & Hin & E).
  exists cell. split; [exact Hin|]. split.
  - rewrite Hf, E. reflexivity.
  - intros other Hother.
    pose proof (distance_to_frontier_le_cell started position other Hother) as Hle.
    rewrite E in Hle. exact Hle.
Qed.

(** X17: the attacker's features read only the agent index and the
    distance table of the agent: they are the same before and after any
    change of the weights, the frontier or the initial position.  The
    guard's features read the frontier as well, and nothing else. *)
Theorem features_frame (self other : t) (state : GameState) (action : Action) :
  agent_index other = agent_index self ->
  _distances other = _distances self ->
  AttackerAgent.compute_features other state action
  = AttackerAgent.compute_features self state action
  /\ (_frontier other = _frontier self ->
      GuardAgent.compute_features other state action
      = GuardAgent.compute_features self state action).
Proof.
  destruct self, other. cbn [agent_index _distances _frontier].
  intros -> ->. split; [reflexivity|]. intros ->. reflexivity.
Qed.

Lemma closest_distance_all_far (self : t) (p : Position)
    (targets : list Position) (default : Q) :
  (forall target, target ∈ targets ->
     (default <= get_distance_default (_distances self) p target default)%Q) ->
  _closest_distance self (Some p) targets default = default.
Proof.
  unfold _closest_distance. induction targets as [|u ts IH]; intros Hfar; simpl.
  - reflexivity.
  - rewrite py_min_first.
    + apply IH. intros target Hin. apply Hfar. now apply list_elem_of_further.
    + apply Hfar. apply list_elem_of_here.
Qed.

(** X18: targets the table does not know (it answers with the default,
    or with anything at least as large) leave [_closest_distance] at the
    default.  For the attacker, food that is visible but unknown to the
    table gives [distance_to_food] = 20.0, not 0.0, and ghosts unknown to
    the table give [distance_to_ghost] = 12.0 and [ghost_near] = 0.0. *)
Theorem attacker_unknown_targets (self : t) (state : GameState) (action : Action)
    (position : Position) :
  get_agent_position state (agent_index self) = Some position ->
  let food := get_food state (agent_index self) in
  let ghosts := values (get_nonscared_opponent_positions state (agent_index self)) in
  let known target := get_distance_default (_distances self) position target 9999%Q in
  let features := AttackerAgent.compute_features self state action in
  (food <> [] -> (forall target, target ∈ food -> (9999 <= known target)%Q) ->
     features !! "distance_to_food" = Some 20%Q)
  /\ ((forall target, target ∈ ghosts -> (9999 <= known target)%Q) ->
        features !! "distance_to_ghost" = Some 12%Q
        /\ features !! "ghost_near" = Some 0%Q).
Proof.
  intros Hpos food ghosts known features. split.
  - intros Hne Hfar.
    pose proof (attacker_food_feature self state action position Hpos) as Hfood.
    cbv zeta in Hfood. fold food features in Hfood.
    unfold MAX_DIST in Hfood. rewrite closest_distance_all_far in Hfood by exact Hfar.
    destruct food; [congruence | exact Hfood].
  - intros Hfar.
    destruct (attacker_ghost_features self state action position Hpos) as [Hnear Hcap].
    fold ghosts features in Hnear, Hcap. unfold MAX_DIST in Hnear, Hcap.
    rewrite closest_distance_all_far in Hnear, Hcap by exact Hfar.
    split; [exact Hcap | exact Hnear].
Qed.

(** ** The further properties at concrete states *)

Lemma feature_keys_with_position_witness :
  get_agent_position Sample.attacker_state (agent_index Sample.attacker)
  = Some (mkPosition 1 2)
  /\ dom (AttackerAgent.compute_features Sample.attacker Sample.attacker_state STOP)
       ∩ dom (GuardAgent.compute_features Sample.attacker Sample.attacker_state STOP)
     = ({["bias"; "stopped"; "on_home_side"; "reverse"]} : gset string).
Proof.
  split; [reflexivity|].
  exact (proj2 (proj2 (feature_keys_with_position Sample.attacker Sample.attacker_state
                         STOP (mkPosition 1 2) eq_refl))).
Defined.

Lemma attacker_distance_to_ghost_bounds_witness :
  get_agent_position Sample.attacker_state (agent_index Sample.attacker)
  = Some (mkPosition 1 2)
  /\ (forall s e,
        0 <= get_distance_default (_distances Sample.attacker) s e 9999)%Q
  /\ exists distance_to_ghost,
       AttackerAgent.compute_features Sample.attacker Sample.attacker_state STOP
         !! "distance_to_ghost" = Some distance_to_ghost
       /\ (0 <= distance_to_ghost)%Q /\ (distance_to_ghost <= 12)%Q.
Proof.
  split; [reflexivity|]. split; [exact (fun s e => manhattan_nonneg s e 9999%Q)|].
  destruct (attacker_distance_to_ghost_bounds Sample.attacker Sample.attacker_state STOP
              (mkPosition 1 2) eq_refl (fun s e => manhattan_nonneg s e 9999%Q))
    as (d & Hd & Hlo & Hhi & _).
  exists d. split; [exact Hd|]. split; [exact Hlo | exact Hhi].
Defined.

Lemma attacker_ghost_features_agree_witness :
  get_agent_position Sample.attacker_state (agent_index Sample.attacker)
  = Some (mkPosition 1 2)
  /\ exists ghost_near distance_to_ghost,
       AttackerAgent.compute_features Sample.attacker Sample.attacker_state STOP
         !! "ghost_near" = Some ghost_near
       /\ AttackerAgent.compute_features Sample.attacker Sample.attacker_state STOP
            !! "distance_to_ghost" = Some distance_to_ghost
       /\ (ghost_near = 1%Q <-> (distance_to_ghost <= 3)%Q).
Proof.
  split; [reflexivity|].
  destruct (attacker_ghost_features_agree Sample.attacker Sample.attacker_state STOP
              (mkPosition 1 2) eq_refl)
    as (n & d & Hn & Hd & Hiff & _).
  exists n, d. split; [exact Hn|]. split; [exact Hd | exact Hiff].
Defined.

Lemma closest_distance_order_irrelevant_witness :
  (forall target,
     target ∈ [mkPosition 1 5; mkPosition 2 9]
     <-> target ∈ [mkPosition 2 9; mkPosition 1 5; mkPosition 2 9])
  /\ (_closest_distance Sample.attacker (Some (mkPosition 1 2))
        [mkPosition 1 5; mkPosition 2 9] 9999%Q
      == _closest_distance Sample.attacker (Some (mkPosition 1 2))
           [mkPosition 2 9; mkPosition 1 5; mkPosition 2 9] 9999%Q)%Q.
Proof.
  assert (Hsame : forall target,
            target ∈ [mkPosition 1 5; mkPosition 2 9]
            <-> target ∈ [mkPosition 2 9; mkPosition 1 5; mkPosition 2 9]).
  { intros target. rewrite !elem_of_cons, !elem_of_nil. tauto. }
  split; [exact Hsame|].
  exact (closest_distance_order_irrelevant Sample.attacker (Some (mkPosition 1 2))
           _ _ 9999%Q Hsame).
Defined.

Lemma closest_distance_to_frontier_witness :
  _frontier Sample.guard <> []
  /\ (_closest_distance Sample.guard (Some (mkPosition 1 7)) (_frontier Sample.guard)
        MAX_DIST
      == py_min MAX_DIST (_distance_to_frontier Sample.guard (Some (mkPosition 1 7))))%Q.
Proof.
  assert (Hne : _frontier Sample.guard <> []) by discriminate.
  split; [exact Hne|].
  exact (closest_distance_to_frontier Sample.guard (mkPosition 1 7) Hne).
Defined.

Lemma guard_on_frontier_witness :
  let state := Sample.state_on Sample.open_board (Some (mkPosition 1 5)) [] [] [] in
  get_agent_position state (agent_index Sample.guard) = Some (mkPosition 1 5)
  /\ get_invader_positions state (agent_index Sample.guard) = []
  /\ mkPosition 1 5 ∈ _frontier Sample.guard
  /\ exists frontier_distance,
       GuardAgent.compute_features Sample.guard state STOP !! "frontier_distance"
         = Some frontier_distance
       /\ (frontier_distance == 0)%Q.
Proof.
  intros state.
  assert (Hin : mkPosition 1 5 ∈ _frontier Sample.guard).
  { apply list_elem_of_further, list_elem_of_here. }
  split; [reflexivity|]. split; [reflexivity|]. split; [exact Hin|].
  exact (guard_on_frontier Sample.guard state STOP (mkPosition 1 5)
           eq_refl eq_refl Hin (fun s e => manhattan_nonneg s e MAX_DIST)
           (Qeq_refl 0)).
Defined.

Lemma guard_pursuit_bounds_witness :
  get_agent_position Sample.guard_state (agent_index Sample.guard)
  = Some (mkPosition 1 7)
  /\ (forall s e, 0 <= get_distance_default (_distances Sample.guard) s e 9999)%Q
  /\ exists distance_to_invader,
       GuardAgent.compute_features Sample.guard Sample.guard_state STOP
         !! "distance_to_invader" = Some distance_to_invader
       /\ (0 <= distance_to_invader)%Q /\ (distance_to_invader <= 9999)%Q.
Proof.
  split; [reflexivity|]. split; [exact (fun s e => manhattan_nonneg s e 9999%Q)|].
  destruct (guard_pursuit_bounds Sample.guard Sample.guard_state STOP
              (mkPosition 1 7) eq_refl (fun s e => manhattan_nonneg s e 9999%Q))
    as (n & d & f & _ & Hd & _ & _ & Hlo & Hhi & _).
  exists d. split; [exact Hd|]. split; [exact Hlo | exact Hhi].
Defined.

Lemma guard_patrol_after_game_start_witness :
  let initial_state := Sample.state_on Sample.open_board None [] [] [] in
  let state := Sample.state_on Sample.open_board (Some (mkPosition 1 7)) [] [] [] in
  let self := GuardAgent.__init__ Sample.unknown 1 ∅ in
  get_agent_initial_position (board initial_state) (agent_index self)
  = Some (mkPosition 1 7)
  /\ get_agent_position state (agent_index self) = Some (mkPosition 1 7)
  /\ get_invader_positions state (agent_index self) = []
  /\ exists cell,
       cell ∈ _frontier Sample.guard
       /\ GuardAgent.compute_features Sample.guard state STOP !! "frontier_distance"
          = Some (get_distance_default Sample.manhattan (mkPosition 1 7) cell 9999%Q).
Proof.
  intros initial_state state self.
  split; [reflexivity|]. split; [reflexivity|]. split; [reflexivity|].
  destruct (guard_patrol_after_game_start Sample.unknown Sample.compute self
              initial_state state STOP (mkPosition 1 7) (mkPosition 1 7)
              eq_refl eq_refl eq_refl)
    as (cell & Hin & Hf & _).
  exists cell. split; [exact Hin | exact Hf].
Defined.

Lemma features_frame_witness :
  agent_index Sample.attacker = agent_index (AttackerAgent.__init__ Sample.manhattan 0 ∅)
  /\ _distances Sample.attacker
     = _distances (AttackerAgent.__init__ Sample.manhattan 0 ∅)
  /\ AttackerAgent.compute_features Sample.attacker Sample.attacker_state STOP
     = AttackerAgent.compute_features (AttackerAgent.__init__ Sample.manhattan 0 ∅)
         Sample.attacker_state STOP.
Proof.
  split; [reflexivity|]. split; [reflexivity|].
  exact (proj1 (features_frame (AttackerAgent.__init__ Sample.manhattan 0 ∅)
                  Sample.attacker Sample.attacker_state STOP eq_refl eq_refl)).
Defined.

Lemma attacker_unknown_targets_witness :
  let self := AttackerAgent.__init__ Sample.unknown 0 ∅ in
  let features := AttackerAgent.compute_features self Sample.attacker_state STOP in
  get_agent_position Sample.attacker_state (agent_index self) = Some (mkPosition 1 2)
  /\ get_food Sample.attacker_state (agent_index self) <> []
  /\ features !! "distance_to_food" = Some 20%Q
  /\ features !! "distance_to_ghost" = Some 12%Q
  /\ features !! "ghost_near" = Some 0%Q.
Proof.
  intros self features.
  destruct (attacker_unknown_targets self Sample.attacker_state STOP (mkPosition 1 2)
              eq_refl) as [Hfood Hghost].
  split; [reflexivity|]. split; [discriminate|]. split.
  - apply Hfood; [discriminate|]. intros target _. apply Qle_refl.
  - apply Hghost. intros target _. apply Qle_refl.
Defined.
